(** * DataLoggerViewer: loading a measurement file into the viewer

    A shallow embedding of [DataLoggerViewer.start]
    (src/pyleco_extras/gui/DataLogger/DataLoggerViewer.pyw, lines 77-117)
    together with the Python built-ins it relies on: [str.rsplit],
    insertion-ordered [dict], [list.pop], [pathlib.PurePosixPath.name] and
    the elementwise division of a numpy array, and of
    [seconds_utc_to_time] (lines 32-37) over the calendar arithmetic of
    [datetime]. *)

From Stdlib Require Import String Ascii List Bool Arith Lia.
From Stdlib Require Import PrimFloat DecimalString DecimalNat ZArith.
Import ListNotations.
Local Open Scope string_scope.
Local Open Scope list_scope.

Set Implicit Arguments.
Set Warnings "-register-all".

(* ===================================================================== *)
(** ** Python strings *)
(* ===================================================================== *)

Module PyStr.

(** The line separator ["\n"] and the POSIX path separator ["/"]. *)
Definition newline : ascii := ascii_of_nat 10.
Definition slash : ascii := "/"%char.

(** [sep in s] for a one-character separator. *)
Fixpoint contains (sep : ascii) (s : string) : bool :=
  match s with
  | EmptyString => false
  | String c r => Ascii.eqb c sep || contains sep r
  end.

(** [s.split(sep)]: the fields between the separators, never empty. *)
Fixpoint split (sep : ascii) (s : string) : list string :=
  match s with
  | EmptyString => [EmptyString]
  | String c r =>
      if Ascii.eqb c sep then EmptyString :: split sep r
      else match split sep r with
           | x :: xs => String c x :: xs
           | [] => [String c EmptyString]
           end
  end.

(** [sep.join(l)]. *)
Fixpoint join (sep : ascii) (l : list string) : string :=
  match l with
  | [] => EmptyString
  | [x] => x
  | x :: xs => (x ++ String sep (join sep xs))%string
  end.

(** Scan for the last separator: [Some (before, after)] when [sep]
    occurs in [s], [None] otherwise. *)
Fixpoint rpartition (sep : ascii) (s : string) : option (string * string) :=
  match s with
  | EmptyString => None
  | String c r =>
      match rpartition sep r with
      | Some (before, after) => Some (String c before, after)
      | None => if Ascii.eqb c sep then Some (EmptyString, r) else None
      end
  end.

(** [s.rsplit(sep, maxsplit=1)]: at most one split, at the last
    separator. *)
Definition rsplit1 (sep : ascii) (s : string) : list string :=
  match rpartition sep s with
  | Some (before, after) => [before; after]
  | None => [s]
  end.

(** [str(n)] of a non-negative integer, as an f-string prints it. *)
Definition of_nat (n : nat) : string :=
  NilEmpty.string_of_uint (Nat.to_uint n).

End PyStr.

(* ===================================================================== *)
(** ** Python dictionaries (insertion ordered, one entry per key) *)
(* ===================================================================== *)

Module PyDict.

Definition dict (V : Type) : Type := list (string * V).

Section Ops.
Variable V : Type.

(** [list(d)] / [d.keys()], in insertion order. *)
Definition keys (d : dict V) : list string := map fst d.

(** [d.get(k)]. *)
Fixpoint get (k : string) (d : dict V) : option V :=
  match d with
  | [] => None
  | (k', v) :: r => if String.eqb k' k then Some v else get k r
  end.

(** [k in d.keys()]. *)
Definition mem (k : string) (d : dict V) : bool :=
  existsb (String.eqb k) (keys d).

(** [d[k] = v]: an existing key keeps its position, a new key goes
    to the end. *)
Fixpoint set (k : string) (v : V) (d : dict V) : dict V :=
  match d with
  | [] => [(k, v)]
  | (k', v') :: r =>
      if String.eqb k' k then (k', v) :: r else (k', v') :: set k v r
  end.

(** A Python dict holds each key once. *)
Definition wf (d : dict V) : Prop := NoDup (keys d).

End Ops.

End PyDict.

Import PyDict.

(* ===================================================================== *)
(** ** pathlib *)
(* ===================================================================== *)

Module PosixPath.

(** The components kept by [pathlib] when it parses a path: empty
    fields and ["."] are dropped. *)
Definition is_part (x : string) : bool :=
  negb (String.eqb x "") && negb (String.eqb x ".").

Definition parts (p : string) : list string :=
  filter is_part (PyStr.split PyStr.slash p).

(** [Path(p).name]: the final component, [""] when there is none. *)
Definition name (p : string) : string := last (parts p) "".

End PosixPath.

(* ===================================================================== *)
(** ** Controller state *)
(* ===================================================================== *)

(** Values stored in a file's metadata mapping (parsed JSON). *)
Inductive value : Type :=
| VNone
| VBool (b : bool)
| VNum (x : float)
| VStr (s : string)
| VList (l : list value)
| VDict (d : list (string * value)).

(** The empty mapping [{}]. *)
Definition empty_mapping : value := VDict [].

Inductive Signal : Type := update_plots | started.

Inductive exn : Type :=
| IndexError
| KeyError (k : string)
| LoadError (msg : string).

(** The fields of the window object that [start] reads or writes, plus
    the texts of the widgets it sets and the signals emitted so far. *)
Record Viewer : Type := mkViewer {
  last_path : string;
  lists : dict (list float);
  units : dict string;
  current_units : dict string;
  variables : list string;
  configuration : value;
  leHeader : string;
  leSavedName : string;
  lbCount : string;
  emitted : list Signal
}.

Definition with_last_path (x : string) (v : Viewer) : Viewer :=
  mkViewer x (lists v) (units v) (current_units v) (variables v)
           (configuration v) (leHeader v) (leSavedName v) (lbCount v)
           (emitted v).
Definition with_lists (x : dict (list float)) (v : Viewer) : Viewer :=
  mkViewer (last_path v) x (units v) (current_units v) (variables v)
           (configuration v) (leHeader v) (leSavedName v) (lbCount v)
           (emitted v).
Definition with_units (x : dict string) (v : Viewer) : Viewer :=
  mkViewer (last_path v) (lists v) x (current_units v) (variables v)
           (configuration v) (leHeader v) (leSavedName v) (lbCount v)
           (emitted v).
Definition with_current_units (x : dict string) (v : Viewer) : Viewer :=
  mkViewer (last_path v) (lists v) (units v) x (variables v)
           (configuration v) (leHeader v) (leSavedName v) (lbCount v)
           (emitted v).
Definition with_variables (x : list string) (v : Viewer) : Viewer :=
  mkViewer (last_path v) (lists v) (units v) (current_units v) x
           (configuration v) (leHeader v) (leSavedName v) (lbCount v)
           (emitted v).
Definition with_configuration (x : value) (v : Viewer) : Viewer :=
  mkViewer (last_path v) (lists v) (units v) (current_units v) (variables v)
           x (leHeader v) (leSavedName v) (lbCount v) (emitted v).
Definition with_leHeader (x : string) (v : Viewer) : Viewer :=
  mkViewer (last_path v) (lists v) (units v) (current_units v) (variables v)
           (configuration v) x (leSavedName v) (lbCount v) (emitted v).
Definition with_leSavedName (x : string) (v : Viewer) : Viewer :=
  mkViewer (last_path v) (lists v) (units v) (current_units v) (variables v)
           (configuration v) (leHeader v) x (lbCount v) (emitted v).
Definition with_lbCount (x : string) (v : Viewer) : Viewer :=
  mkViewer (last_path v) (lists v) (units v) (current_units v) (variables v)
           (configuration v) (leHeader v) (leSavedName v) x (emitted v).
Definition with_emitted (x : list Signal) (v : Viewer) : Viewer :=
  mkViewer (last_path v) (lists v) (units v) (current_units v) (variables v)
           (configuration v) (leHeader v) (leSavedName v) (lbCount v) x.

(** [DataLoggerViewer.__init__]: the fields the constructor sets; the
    widgets start out blank. *)
Definition init : Viewer :=
  mkViewer "" [] [] [] [] empty_mapping "" "" "" [].

(* ===================================================================== *)
(** ** Statements that mutate the window and may raise *)
(* ===================================================================== *)

Inductive result (A : Type) : Type :=
| Ok (a : A)
| Raise (e : exn).
Arguments Raise {A} e.

(** A method body: it leaves the window in some state and either returns
    or raises.  The state reached before a raise is kept, as in Python. *)
Definition M (A : Type) : Type := Viewer -> Viewer * result A.

Definition ret {A} (a : A) : M A := fun v => (v, Ok a).
Definition raise {A} (e : exn) : M A := fun v => (v, Raise e).
Definition bind {A B} (m : M A) (k : A -> M B) : M B :=
  fun v => match m v with
           | (v', Ok a) => k a v'
           | (v', Raise e) => (v', Raise e)
           end.
Definition read {A} (f : Viewer -> A) : M A := fun v => (v, Ok (f v)).
Definition assign (f : Viewer -> Viewer) : M unit := fun v => (f v, Ok tt).
Definition lift {A} (r : result A) : M A := fun v => (v, r).

(** [try: body / except IndexError: pass / else: k]. *)
Definition try_except_IndexError_else {A} (body : M A) (k : A -> M unit)
  : M unit :=
  fun v => match body v with
           | (v', Ok a) => k a v'
           | (v', Raise IndexError) => (v', Ok tt)
           | (v', Raise e) => (v', Raise e)
           end.

Declare Scope py_scope.
Delimit Scope py_scope with py.
Notation "x <- m ;; k" := (bind m (fun x => k))
  (at level 61, m at next level, right associativity) : py_scope.
Notation "m ;; k" := (bind m (fun _ => k))
  (at level 61, right associativity) : py_scope.
Local Open Scope py_scope.

(** [d[k]]. *)
Definition getitem {V} (d : dict V) (k : string) : M V :=
  match get k d with
  | Some x => ret x
  | None => raise (KeyError k)
  end.

(** [l.pop()]: the last element; [IndexError] on an empty list. *)
Definition pop {A} (l : list A) : M A :=
  match rev l with
  | x :: _ => ret x
  | [] => raise IndexError
  end.

(** [list(np.array(xs) / 3600)]. *)
Definition div3600 (xs : list float) : list float :=
  map (fun x => (x / 3600)%float) xs.

(** [signal.emit()]. *)
Definition emit (s : Signal) : M unit :=
  assign (fun v => with_emitted (emitted v ++ [s]) v).

Section Start.

(** The collaborators of [start] that live outside this file. *)

(** [QFileDialog.getOpenFileName(...)[0]], as a function of the start
    directory it is given; [""] when the user cancels. *)
Variable getOpenFileName : string -> string.

(** [QSettings().value('savePath', type=str)]. *)
Variable savePath : string.

(** [analysis.data.load_datalogger_file]: header, data and metadata of
    the file, or an error. *)
Variable load_datalogger_file :
  string -> result (string * dict (list float) * dict value).

(** What [DataLoggerBase.set_configuration] does to the variable names
    and units of the window when it is handed a configuration. *)
Variable restore : value -> list string * dict string ->
                   list string * dict string.

(** Modelled from the spec: [DataLoggerBase.set_configuration] is not
    part of the source.  The configuration handed over is copied
    verbatim into the viewer's configuration state; its effect on the
    variable names and units is left to [restore]. *)
Definition set_configuration (cfg : value) : M unit :=
  assign (fun v =>
            let vu := restore cfg (variables v, units v) in
            with_units (snd vu)
              (with_variables (fst vu) (with_configuration cfg v))).

(** [meta.get("configuration", {})]. *)
Definition get_configuration (meta : dict value) : value :=
  match get "configuration" meta with
  | Some c => c
  | None => empty_mapping
  end.

(** [self.last_path or settings.value('savePath', type=str)]. *)
Definition start_directory (v : Viewer) : string :=
  if String.eqb (last_path v) "" then savePath else last_path v.

(** [f"Data points: {length}"]. *)
Definition count_text (length : nat) : string :=
  ("Data points: " ++ PyStr.of_nat length)%string.

(** The test of line 101:
    ["time" in data.keys() and "time_h" not in data.keys()]. *)
Definition derives (data : dict (list float)) : bool :=
  mem "time" data && negb (mem "time_h" data).

(** [DataLoggerViewer.start], statement by statement. *)
Definition start : M unit :=
  dir <- read start_directory ;;
  let file_name := getOpenFileName dir in
  if String.eqb file_name "" then ret tt
  else
    assign (with_last_path file_name) ;;
    let path := file_name in
    loaded <- lift (load_datalogger_file path) ;;
    let '(header, data, meta) := loaded in
    assign (with_lists data) ;;
    assign (with_leHeader (hd "" (PyStr.rsplit1 PyStr.newline header))) ;;
    set_configuration (get_configuration meta) ;;
    (if derives data then
       time <- getitem data "time" ;;
       assign (fun v => with_lists (set "time_h" (div3600 time) (lists v)) v) ;;
       assign (fun v => with_variables (variables v ++ ["time_h"]) v) ;;
       assign (fun v => with_units (set "time_h" "h" (units v)) v)
     else ret tt) ;;
    assign (fun v => with_current_units (units v) v) ;;
    assign (with_leSavedName (PosixPath.name path)) ;;
    emit update_plots ;;
    emit started ;;
    try_except_IndexError_else
      (ks <- read (fun v => keys (lists v)) ;;
       k <- pop ks ;;
       l <- read lists ;;
       xs <- getitem l k ;;
       ret (length xs))
      (fun length => assign (with_lbCount (count_text length))).

(** The file the dialog hands back when [start] runs in state [v]. *)
Definition selected_file (v : Viewer) : string :=
  getOpenFileName (start_directory v).

(** The samples mapping after line 102. *)
Definition lists_after (data : dict (list float)) : dict (list float) :=
  if derives data then
    match get "time" data with
    | Some time => set "time_h" (div3600 time) data
    | None => data
    end
  else data.

(** The text of the count label after lines 112-117, for the samples
    mapping [l] and the text [old] shown before. *)
Definition count_after (l : dict (list float)) (old : string) : string :=
  match rev (keys l) with
  | [] => old
  | k :: _ => match get k l with
              | Some xs => count_text (length xs)
              | None => old
              end
  end.

(** The window state in which a successful load leaves [v]. *)
Definition after_load (v : Viewer) (header : string)
  (data : dict (list float)) (meta : dict value) : Viewer :=
  let cfg := get_configuration meta in
  let vu := restore cfg (variables v, units v) in
  let us := if derives data then set "time_h" "h" (snd vu) else snd vu in
  mkViewer (selected_file v)
           (lists_after data)
           us us
           (if derives data then fst vu ++ ["time_h"] else fst vu)
           cfg
           (hd "" (PyStr.rsplit1 PyStr.newline header))
           (PosixPath.name (selected_file v))
           (count_after (lists_after data) (lbCount v))
           (emitted v ++ [update_plots; started]).

End Start.

(** The header with its final line removed, in the words of the
    specification: split the header into lines, leave the last line out,
    and put the others together again. *)
Definition without_final_line (header : string) : string :=
  PyStr.join PyStr.newline (removelast (PyStr.split PyStr.newline header)).

(* ===================================================================== *)
(** ** Sample collaborators and files *)
(* ===================================================================== *)

Module Sample.

(** A dialog in which the user picks [/a/b/run1.json], and one in which
    the user cancels. *)
Definition pick (dir : string) : string := "/a/b/run1.json".
Definition cancel (dir : string) : string := "".

(** A base window whose [set_configuration] leaves names and units. *)
Definition keep (cfg : value) (vu : list string * dict string) := vu.

Definition header3 : string :=
  ("A" ++ String PyStr.newline "B" ++ String PyStr.newline "C")%string.

(** A file with a seconds column, and one that already has hours. *)
Definition seconds : dict (list float) :=
  [("time", [0; 3600; 7200]%float); ("x", [1; 2; 3]%float)].
Definition hours : dict (list float) :=
  [("time", [0; 3600]%float); ("time_h", [0; 1]%float); ("x", [5; 6]%float)].

Definition meta_cfg : dict value :=
  [("configuration", VDict [("trigger_type", VStr "timer")])].

Definition load (header : string) (data : dict (list float))
  (meta : dict value) (path : string)
  : result (string * dict (list float) * dict value) :=
  Ok (header, data, meta).
Definition corrupt (path : string)
  : result (string * dict (list float) * dict value) :=
  Raise (LoadError "corrupt file").

(** A window that shows an earlier measurement. *)
Definition shown : Viewer :=
  mkViewer "/a/old.json" [("y", [1; 2]%float)] [("y", "V")] [("y", "V")]
           ["y"] empty_mapping "old header" "old.json" "Data points: 2"
           [update_plots; started].

End Sample.

(* ===================================================================== *)
(** ** [seconds_utc_to_time] *)
(* ===================================================================== *)

Module Clock.

Local Open Scope Z_scope.

(** A [datetime.time] whose seconds are whole: hour, minute, second. *)
Record time : Type := mkTime { hour : Z; minute : Z; second : Z }.

Inductive clock_error : Type := OverflowError | OSError.

Inductive outcome : Type :=
| Returns (t : time)
| Fails (e : clock_error).

(** [date.max.toordinal()], the largest day count of a [timedelta] and
    [date(1970, 1, 1).toordinal()]. *)
Definition MAXORDINAL : Z := 3652059.
Definition MAX_DELTA_DAYS : Z := 999999999.
Definition EPOCH_ORDINAL : Z := 719163.

(** A date exists for the ordinals 1 (0001-01-01) to [MAXORDINAL]. *)
Definition valid_ordinal (n : Z) : bool := (1 <=? n) && (n <=? MAXORDINAL).

(** The time of day [tod] seconds after midnight. *)
Definition time_of_day (tod : Z) : time :=
  mkTime (tod / 3600) (tod mod 3600 / 60) (tod mod 60).

Section SecondsUtcToTime.

(** The ordinal of [datetime.now(timezone.utc).date()]. *)
Variable today : Z.

(** [time.localtime(ts).tm_gmtoff]: the offset of the local zone at the
    POSIX timestamp [ts], in seconds, or the error of the platform. *)
Variable tm_gmtoff : Z -> clock_error + Z.

(** [seconds_utc_to_time(seconds)] for an integer [seconds] (lines
    32-37): midnight UTC of today plus the seconds, seen in the local
    zone, without its date. *)
Definition seconds_utc_to_time (seconds : Z) : outcome :=
  (* timedelta(seconds=seconds) *)
  let days := seconds / 86400 in
  if (days <? - MAX_DELTA_DAYS) || (MAX_DELTA_DAYS <? days)
  then Fails OverflowError
  else
    (* today_dt + timedelta *)
    if negb (valid_ordinal (today + days)) then Fails OverflowError
    else
      (* .astimezone() *)
      let ts := (today - EPOCH_ORDINAL) * 86400 + seconds in
      match tm_gmtoff ts with
      | inl e => Fails e
      | inr gmtoff =>
          let local := today * 86400 + seconds + gmtoff in
          if negb (valid_ordinal (local / 86400)) then Fails OverflowError
          else
            (* .time() *)
            Returns (time_of_day (local mod 86400))
      end.

End SecondsUtcToTime.

(** The seconds after midnight of a time. *)
Definition to_seconds (t : time) : Z :=
  hour t * 3600 + minute t * 60 + second t.

End Clock.

(* ===================================================================== *)
(** ** Facts about the built-ins *)
(* ===================================================================== *)

Section DictFacts.
Variable V : Type.
Implicit Types (d : dict V) (k : string) (x : V).

Lemma mem_In k d : mem k d = true <-> In k (keys d).
Proof.
  unfold mem. rewrite existsb_exists. split.
  - intros [y [Hy E]]. apply String.eqb_eq in E. now subst.
  - intros H. exists k. split; [assumption | apply String.eqb_refl].
Qed.

Lemma mem_false_not_In k d : mem k d = false <-> ~ In k (keys d).
Proof.
  rewrite <- mem_In. destruct (mem k d); split; congruence.
Qed.

Lemma In_keys_get k d : In k (keys d) -> exists x, get k d = Some x.
Proof.
  induction d as [|[k' x'] r IH]; simpl; [contradiction|].
  intros [E | H].
  - subst. rewrite String.eqb_refl. eauto.
  - destruct (String.eqb k' k); eauto.
Qed.

Lemma get_In_keys k d x : get k d = Some x -> In k (keys d).
Proof.
  induction d as [|[k' x'] r IH]; simpl; [discriminate|].
  destruct (String.eqb k' k) eqn:E.
  - apply String.eqb_eq in E. now left.
  - intros H. right. now apply IH.
Qed.

Lemma set_fresh k x d : mem k d = false -> set k x d = d ++ [(k, x)].
Proof.
  rewrite mem_false_not_In.
  induction d as [|[k' x'] r IH]; simpl; intros H; [reflexivity|].
  destruct (String.eqb k' k) eqn:E.
  - apply String.eqb_eq in E. tauto.
  - rewrite IH by tauto. reflexivity.
Qed.

Lemma get_set_same k x d : get k (set k x d) = Some x.
Proof.
  induction d as [|[k' x'] r IH]; simpl.
  - now rewrite String.eqb_refl.
  - destruct (String.eqb k' k) eqn:E; simpl; now rewrite E.
Qed.

Lemma get_set_other k k' x d : k <> k' -> get k' (set k x d) = get k' d.
Proof.
  intros N. induction d as [|[k0 x0] r IH]; simpl.
  - destruct (String.eqb k k') eqn:E; [|reflexivity].
    apply String.eqb_eq in E. contradiction.
  - destruct (String.eqb k0 k) eqn:E; simpl.
    + apply String.eqb_eq in E. subst k0.
      destruct (String.eqb k k') eqn:E'; [|reflexivity].
      apply String.eqb_eq in E'. contradiction.
    + now rewrite IH.
Qed.

Lemma get_app_fresh k k' x d :
  get k' (d ++ [(k, x)]) =
  match get k' d with
  | Some y => Some y
  | None => if String.eqb k k' then Some x else None
  end.
Proof.
  induction d as [|[k0 x0] r IH]; simpl; [reflexivity|].
  destruct (String.eqb k0 k'); [reflexivity | exact IH].
Qed.

Lemma keys_app d1 d2 : keys (d1 ++ d2) = keys d1 ++ keys d2.
Proof. unfold keys. apply map_app. Qed.

Lemma count_occ_wf k d :
  wf d -> In k (keys d) -> count_occ string_dec (keys d) k = 1.
Proof.
  unfold wf. intros ND H.
  pose proof (proj1 (NoDup_count_occ string_dec (keys d)) ND k) as Hle.
  apply (count_occ_In string_dec) in H. lia.
Qed.

End DictFacts.

Section StrFacts.
Variable sep : ascii.
Implicit Types (s : string).

Lemma split_not_nil s : PyStr.split sep s <> [].
Proof.
  destruct s as [|c r]; simpl; [discriminate|].
  destruct (Ascii.eqb c sep); [discriminate|].
  destruct (PyStr.split sep r); discriminate.
Qed.

Lemma split_no_sep s :
  PyStr.contains sep s = false -> PyStr.split sep s = [s].
Proof.
  induction s as [|c r IH]; simpl; [reflexivity|].
  destruct (Ascii.eqb c sep); simpl; [discriminate|].
  intros H. now rewrite IH.
Qed.

Lemma split_app_sep b a :
  PyStr.split sep (b ++ String sep a)
  = PyStr.split sep b ++ PyStr.split sep a.
Proof.
  induction b as [|c r IH]; simpl.
  - now rewrite Ascii.eqb_refl.
  - destruct (Ascii.eqb c sep); rewrite IH; [reflexivity|].
    pose proof (split_not_nil r) as N.
    destruct (PyStr.split sep r); [contradiction | reflexivity].
Qed.

Lemma join_split s : PyStr.join sep (PyStr.split sep s) = s.
Proof.
  induction s as [|c r IH]; [reflexivity|].
  pose proof (split_not_nil r) as N.
  cbn [PyStr.split].
  destruct (Ascii.eqb c sep) eqn:E.
  - apply Ascii.eqb_eq in E. subst c.
    destruct (PyStr.split sep r) as [|x xs]; [contradiction|].
    cbn [PyStr.join]. cbn [PyStr.join] in IH. now rewrite IH.
  - destruct (PyStr.split sep r) as [|x xs]; [contradiction|].
    destruct xs as [|y ys]; cbn [PyStr.join] in *.
    + now subst.
    + simpl. now rewrite IH.
Qed.

Lemma split_fields_no_sep s :
  Forall (fun x => PyStr.contains sep x = false) (PyStr.split sep s).
Proof.
  induction s as [|c r IH]; simpl.
  - repeat constructor.
  - destruct (Ascii.eqb c sep) eqn:E.
    + constructor; [reflexivity | assumption].
    + destruct (PyStr.split sep r) as [|x xs].
      * repeat constructor. simpl. now rewrite E.
      * inversion IH; subst. constructor; [|assumption].
        simpl. now rewrite E.
Qed.

Lemma rpartition_None s :
  PyStr.rpartition sep s = None <-> PyStr.contains sep s = false.
Proof.
  induction s as [|c r IH]; simpl; [tauto|].
  destruct (PyStr.rpartition sep r) as [[b a]|].
  - split; [discriminate|]. intros H.
    apply orb_false_iff in H. destruct H as [_ H].
    apply IH in H. discriminate.
  - destruct IH as [IH _]. rewrite (IH eq_refl).
    destruct (Ascii.eqb c sep); simpl; split; congruence.
Qed.

Lemma rpartition_Some s b a :
  PyStr.rpartition sep s = Some (b, a) ->
  s = (b ++ String sep a)%string /\ PyStr.contains sep a = false.
Proof.
  revert b a. induction s as [|c r IH]; simpl; [discriminate|].
  intros b a. destruct (PyStr.rpartition sep r) as [[b' a']|] eqn:R.
  - intros H. inversion H; subst. destruct (IH _ _ eq_refl) as [-> Ha].
    now split.
  - destruct (Ascii.eqb c sep) eqn:E; [|discriminate].
    intros H. inversion H; subst. apply Ascii.eqb_eq in E. subst c.
    split; [reflexivity | now apply rpartition_None].
Qed.

(** [s.rsplit(sep, maxsplit=1)[0]] is the part before the last
    separator, and the whole string when there is none. *)
Lemma rsplit1_head_sep b a :
  PyStr.contains sep a = false ->
  hd "" (PyStr.rsplit1 sep (b ++ String sep a)) = b.
Proof.
  intros Ha. unfold PyStr.rsplit1.
  destruct (PyStr.rpartition sep (b ++ String sep a)) as [[b' a']|] eqn:R.
  - simpl. apply rpartition_Some in R. destruct R as [E Ha'].
    assert (PyStr.split sep (b ++ String sep a)
            = PyStr.split sep (b' ++ String sep a')) as S by now rewrite <- E.
    rewrite !split_app_sep, (split_no_sep _ Ha), (split_no_sep _ Ha') in S.
    apply app_inj_tail in S. destruct S as [S _].
    rewrite <- (join_split b), <- (join_split b'). now rewrite S.
  - apply rpartition_None in R. exfalso. revert R. clear.
    induction b as [|c r IH]; simpl.
    + now rewrite Ascii.eqb_refl.
    + destruct (Ascii.eqb c sep); simpl; [discriminate | exact IH].
Qed.

Lemma rsplit1_head_no_sep s :
  PyStr.contains sep s = false -> hd "" (PyStr.rsplit1 sep s) = s.
Proof.
  intros H. unfold PyStr.rsplit1.
  apply rpartition_None in H. now rewrite H.
Qed.

Lemma contains_decompose s :
  PyStr.contains sep s = true ->
  exists b a, s = (b ++ String sep a)%string /\ PyStr.contains sep a = false.
Proof.
  intros H. destruct (PyStr.rpartition sep s) as [[b a]|] eqn:R.
  - exists b, a. now apply rpartition_Some.
  - apply rpartition_None in R. congruence.
Qed.

End StrFacts.

Lemma without_final_line_sep b a :
  PyStr.contains PyStr.newline a = false ->
  without_final_line (b ++ String PyStr.newline a) = b.
Proof.
  intros Ha. unfold without_final_line.
  rewrite split_app_sep, (split_no_sep _ _ Ha), removelast_last.
  apply join_split.
Qed.

Lemma last_nil_or_In (A : Type) (l : list A) (d : A) :
  l = [] \/ In (last l d) l.
Proof.
  induction l as [|x r _] using rev_ind; [now left | right].
  rewrite last_last. apply in_or_app. right. now left.
Qed.

Lemma name_no_slash p :
  PyStr.contains PyStr.slash (PosixPath.name p) = false.
Proof.
  unfold PosixPath.name, PosixPath.parts.
  destruct (last_nil_or_In
              (filter PosixPath.is_part (PyStr.split PyStr.slash p)) "")
    as [E | H].
  - rewrite E. reflexivity.
  - apply filter_In in H. destruct H as [H _].
    pose proof (split_fields_no_sep PyStr.slash p) as F.
    rewrite Forall_forall in F. now apply F.
Qed.

Lemma name_of_join dir base :
  PyStr.contains PyStr.slash base = false ->
  PosixPath.is_part base = true ->
  PosixPath.name (dir ++ String PyStr.slash base) = base.
Proof.
  intros Hs Hp. unfold PosixPath.name, PosixPath.parts.
  rewrite split_app_sep, (split_no_sep _ _ Hs), filter_app. simpl.
  rewrite Hp. apply last_last.
Qed.

(* ===================================================================== *)
(** ** Running [start] *)
(* ===================================================================== *)

Unset Implicit Arguments.

(** The text of the count label, letter by letter: the words
    ["Data points: "] and then the decimal digits of the length, which
    read back as that number. *)
Lemma count_text_decimal (n : nat) :
  exists digits,
    count_text n = ("Data points: " ++ digits)%string /\
    digits = NilEmpty.string_of_uint (Nat.to_uint n) /\
    option_map Nat.of_uint (NilEmpty.uint_of_string digits) = Some n.
Proof.
  exists (NilEmpty.string_of_uint (Nat.to_uint n)).
  split; [reflexivity|]. split; [reflexivity|].
  rewrite NilEmpty.usu. simpl. f_equal. apply DecimalNat.Unsigned.of_to.
Qed.

Section StartFacts.
Variable getOpenFileName : string -> string.
Variable savePath : string.
Variable load_datalogger_file :
  string -> result (string * dict (list float) * dict value).
Variable restore : value -> list string * dict string ->
                   list string * dict string.


Implicit Types (v : Viewer) (data : dict (list float)) (meta : dict value).

Lemma start_cancelled v :
  selected_file getOpenFileName savePath v = "" ->
  start getOpenFileName savePath load_datalogger_file restore v
  = (v, Ok tt).
Proof.
  intros H. unfold start, bind, read, ret.
  fold (selected_file getOpenFileName savePath v).
  now rewrite H.
Qed.

Lemma start_load_error v e :
  selected_file getOpenFileName savePath v <> "" ->
  load_datalogger_file (selected_file getOpenFileName savePath v)
  = Raise e ->
  start getOpenFileName savePath load_datalogger_file restore v
  = (with_last_path (selected_file getOpenFileName savePath v) v, Raise e).
Proof.
  intros Hsel Hload. apply String.eqb_neq in Hsel.
  unfold start, bind, read, assign, lift.
  fold (selected_file getOpenFileName savePath v).
  rewrite Hsel. now rewrite Hload.
Qed.

Lemma start_loaded v header data meta :
  selected_file getOpenFileName savePath v <> "" ->
  load_datalogger_file (selected_file getOpenFileName savePath v)
  = Ok (header, data, meta) ->
  start getOpenFileName savePath load_datalogger_file restore v
  = (after_load getOpenFileName savePath restore v header data meta, Ok tt).
Proof.
  intros Hsel Hload. apply String.eqb_neq in Hsel.
  assert (forall l k ks, rev (keys l) = k :: ks ->
          exists xs : list float, get k l = Some xs) as Hlast.
  { intros l k ks R. apply In_keys_get, in_rev. rewrite R. now left. }
  unfold start, bind, read, assign, lift.
  fold (selected_file getOpenFileName savePath v).
  rewrite Hsel, Hload.
  unfold after_load, lists_after, set_configuration, assign, emit, assign,
    try_except_IndexError_else, bind, read, getitem, pop, count_after, ret,
    raise.
  destruct (derives data) eqn:D.
  - unfold derives in D. apply andb_true_iff in D. destruct D as [Ht _].
    apply mem_In in Ht. apply In_keys_get in Ht. destruct Ht as [time Ht].
    rewrite Ht. cbn -[keys].
    destruct (rev (keys (set "time_h" (div3600 time) data)))
      as [|k ks] eqn:R.
    + rewrite <- app_assoc. reflexivity.
    + destruct (Hlast _ _ _ R) as [xs Hk]. cbn -[keys].
      rewrite !Hk. cbn -[keys].
      rewrite <- app_assoc. reflexivity.
  - cbn -[keys].
    destruct (rev (keys data)) as [|k ks] eqn:R.
    + rewrite <- app_assoc. reflexivity.
    + destruct (Hlast _ _ _ R) as [xs Hk]. cbn -[keys].
      rewrite !Hk. cbn -[keys].
      rewrite <- app_assoc. reflexivity.
Qed.

Lemma derives_iff data :
  derives data = true <-> mem "time" data = true /\ mem "time_h" data = false.
Proof.
  unfold derives. rewrite andb_true_iff, negb_true_iff. tauto.
Qed.

Lemma lists_after_derived data time :
  derives data = true -> get "time" data = Some time ->
  lists_after data = data ++ [("time_h", div3600 time)].
Proof.
  intros D Ht. unfold lists_after. rewrite D, Ht.
  apply set_fresh. now apply derives_iff in D.
Qed.

Lemma lists_after_kept data : derives data = false -> lists_after data = data.
Proof. intros D. unfold lists_after. now rewrite D. Qed.

Lemma count_after_last (l : dict (list float)) old ks k :
  keys l = ks ++ [k] ->
  exists xs, get k l = Some xs /\ count_after l old = count_text (length xs).
Proof.
  intros K. unfold count_after. rewrite K, rev_unit.
  destruct (@In_keys_get _ k l) as [xs Hk].
  { rewrite K. apply in_or_app. right. now left. }
  exists xs. now rewrite Hk.
Qed.

Lemma div3600_length time : length (div3600 time) = length time.
Proof. unfold div3600. apply length_map. Qed.

(** C5: when the file dialog hands back the empty selection, [start]
    returns without raising and leaves the whole window state as it
    was: last path, samples mapping, header text and every other field
    are the old ones, and no signal (neither [update_plots] nor
    [started]) is added to those emitted. *)
Theorem C5_cancel_is_noop v :
  selected_file getOpenFileName savePath v = "" ->
  let out := start getOpenFileName savePath load_datalogger_file restore v in
  out = (v, Ok tt) /\
  last_path (fst out) = last_path v /\
  lists (fst out) = lists v /\
  leHeader (fst out) = leHeader v /\
  emitted (fst out) = emitted v.
Proof.
  intros H out. subst out. rewrite (start_cancelled v H). simpl.
  repeat split.
Qed.

(** C3 (amended): when the file loader raises, the error leaves [start]
    and every field but the last path is the old one: samples mapping,
    header text, configuration, units, variable names, labels and
    emitted signals.  The last path has already been set to the selected
    file (line 95 runs before the load of line 97). *)
Theorem C3_load_error_keeps_all_but_last_path v e :
  selected_file getOpenFileName savePath v <> "" ->
  load_datalogger_file (selected_file getOpenFileName savePath v)
  = Raise e ->
  let v' :=
    fst (start getOpenFileName savePath load_datalogger_file restore v) in
  snd (start getOpenFileName savePath load_datalogger_file restore v)
  = Raise e /\
  v' = with_last_path (selected_file getOpenFileName savePath v) v /\
  last_path v' = selected_file getOpenFileName savePath v /\
  lists v' = lists v /\ leHeader v' = leHeader v /\
  configuration v' = configuration v /\
  units v' = units v /\ current_units v' = current_units v /\
  variables v' = variables v /\
  leSavedName v' = leSavedName v /\ lbCount v' = lbCount v /\
  emitted v' = emitted v.
Proof.
  intros Hsel Hload. rewrite (start_load_error v _ Hsel Hload). simpl.
  repeat split.
Qed.

(** C1: after a successful load whose data has the key ["time"] and not
    the key ["time_h"], the variable names of the window contain
    ["time_h"], so do the keys of the samples mapping, the ["time_h"]
    samples are the ["time"] samples each divided by 3600, and the units
    (and the published current units) give ["h"] for ["time_h"]. *)
Theorem C1_time_h_derived v header data meta :
  selected_file getOpenFileName savePath v <> "" ->
  load_datalogger_file (selected_file getOpenFileName savePath v)
  = Ok (header, data, meta) ->
  mem "time" data = true ->
  mem "time_h" data = false ->
  let v' :=
    fst (start getOpenFileName savePath load_datalogger_file restore v) in
  snd (start getOpenFileName savePath load_datalogger_file restore v) = Ok tt /\
  In "time_h" (variables v') /\
  In "time_h" (keys (lists v')) /\
  (exists time,
      get "time" data = Some time /\
      get "time_h" (lists v')
      = Some (map (fun x => (x / 3600)%float) time)) /\
  get "time_h" (units v') = Some "h" /\
  get "time_h" (current_units v') = Some "h".
Proof.
  intros Hsel Hload Ht Hh.
  assert (derives data = true) as D by now apply derives_iff.
  rewrite (start_loaded v _ _ _ Hsel Hload). cbn -[keys get set].
  apply mem_In, In_keys_get in Ht. destruct Ht as [time Ht].
  rewrite D, (lists_after_derived _ _ D Ht).
  split; [reflexivity|]. split.
  { apply in_or_app. right. now left. }
  split.
  { rewrite keys_app. apply in_or_app. right. now left. }
  split.
  { exists time. split; [assumption|].
    rewrite get_app_fresh.
    apply mem_false_not_In in Hh.
    destruct (get "time_h" data) as [y|] eqn:G.
    - apply get_In_keys in G. contradiction.
    - reflexivity. }
  split; apply get_set_same.
Qed.

(** C4: the ["time_h"] column is derived exactly when the loaded data
    has ["time"] and lacks ["time_h"]: only then does the samples
    mapping differ from the loaded data, and only then is ["time_h"]
    appended to the variable names.  When the data already has
    ["time_h"], the samples mapping is the loaded data itself: its
    ["time_h"] entry is the loaded one and the name occurs once among
    its keys; no name is appended to [self.variables] and no unit is
    set.  When the data has no ["time"], nothing is added either. *)
Theorem C4_time_h_only_when_missing v header data meta :
  selected_file getOpenFileName savePath v <> "" ->
  load_datalogger_file (selected_file getOpenFileName savePath v)
  = Ok (header, data, meta) ->
  wf data ->
  let v' :=
    fst (start getOpenFileName savePath load_datalogger_file restore v) in
  let base := restore (get_configuration meta) (variables v, units v) in
  ((mem "time" data = true /\ mem "time_h" data = false)
   <-> lists v' <> data) /\
  ((mem "time" data = true /\ mem "time_h" data = false)
   <-> variables v' = fst base ++ ["time_h"]) /\
  (mem "time_h" data = true ->
   lists v' = data /\
   get "time_h" (lists v') = get "time_h" data /\
   count_occ string_dec (keys (lists v')) "time_h" = 1 /\
   variables v' = fst base /\ units v' = snd base) /\
  (mem "time" data = false ->
   lists v' = data /\ keys (lists v') = keys data /\
   variables v' = fst base /\ units v' = snd base).
Proof.
  intros Hsel Hload Hwf.
  rewrite (start_loaded v _ _ _ Hsel Hload). cbn -[keys get set].
  rewrite <- derives_iff.
  assert (forall (A : Type) (l : list A) (x : A), l <> l ++ [x]) as Napp.
  { intros A l x E. apply (f_equal (@length A)) in E.
    rewrite length_app in E. simpl in E. lia. }
  split; [|split; [|split]].
  - destruct (derives data) eqn:D.
    + split; [intros _|reflexivity].
      destruct (proj1 (derives_iff data) D) as [Ht _].
      apply mem_In, In_keys_get in Ht. destruct Ht as [time Ht].
      rewrite (lists_after_derived _ _ D Ht). intros E. symmetry in E.
      now apply Napp in E.
    + rewrite (lists_after_kept _ D). split; [discriminate | congruence].
  - destruct (derives data) eqn:D.
    + split; reflexivity.
    + split; [discriminate|]. intros E. now apply Napp in E.
  - intros Hh.
    assert (derives data = false) as D.
    { unfold derives. rewrite Hh. apply andb_false_r. }
    rewrite D, (lists_after_kept _ D). repeat split.
    apply count_occ_wf; [assumption | now apply mem_In].
  - intros Ht.
    assert (derives data = false) as D.
    { unfold derives. now rewrite Ht. }
    rewrite D, (lists_after_kept _ D). repeat split.
Qed.

(** C2: after a successful load [start] returns without raising.  The
    ordering of the loaded variable names is the key order of the
    samples mapping [self.lists], whose last element line 113 takes:
    when there is a last key, the count label reads ["Data points: "]
    followed by the decimal digits of the length of the samples stored
    under it; when there is no key at all, the count label keeps its
    old text.  Whenever ["time_h"] is derived, the list
    [self.variables] of the base window ends in that same name. *)
Theorem C2_count_of_last_variable v header data meta :
  selected_file getOpenFileName savePath v <> "" ->
  load_datalogger_file (selected_file getOpenFileName savePath v)
  = Ok (header, data, meta) ->
  let v' :=
    fst (start getOpenFileName savePath load_datalogger_file restore v) in
  snd (start getOpenFileName savePath load_datalogger_file restore v)
  = Ok tt /\
  (forall ks k, keys (lists v') = ks ++ [k] ->
     exists xs digits,
       get k (lists v') = Some xs /\
       lbCount v' = ("Data points: " ++ digits)%string /\
       digits = NilEmpty.string_of_uint (Nat.to_uint (length xs)) /\
       option_map Nat.of_uint (NilEmpty.uint_of_string digits)
       = Some (length xs)) /\
  (keys (lists v') = [] -> lbCount v' = lbCount v) /\
  (mem "time" data = true -> mem "time_h" data = false ->
   exists ks names,
     keys (lists v') = ks ++ ["time_h"] /\
     variables v' = names ++ ["time_h"]).
Proof.
  intros Hsel Hload.
  rewrite (start_loaded v _ _ _ Hsel Hload). cbn -[keys get set].
  split; [reflexivity|]. split; [|split].
  - intros ks k K.
    destruct (count_after_last (lists_after data) (lbCount v) ks k K)
      as [xs [G C]].
    destruct (count_text_decimal (length xs)) as [digits [T [Dg Rd]]].
    exists xs, digits. rewrite C, T. repeat split; assumption.
  - intros K. unfold count_after. now rewrite K.
  - intros Ht Hh.
    assert (derives data = true) as D by now apply derives_iff.
    apply mem_In, In_keys_get in Ht. destruct Ht as [time Ht].
    rewrite D, (lists_after_derived _ _ D Ht), keys_app.
    now exists (keys data),
      (fst (restore (get_configuration meta) (variables v, units v))).
Qed.

(** C6 (amended): after a successful load of a file whose header has at
    least one newline, the header text shown is the loaded header with
    its final line removed. *)
Theorem C6_header_without_final_line v header data meta :
  selected_file getOpenFileName savePath v <> "" ->
  load_datalogger_file (selected_file getOpenFileName savePath v)
  = Ok (header, data, meta) ->
  PyStr.contains PyStr.newline header = true ->
  leHeader (fst (start getOpenFileName savePath load_datalogger_file restore v))
  = without_final_line header.
Proof.
  intros Hsel Hload Hnl.
  rewrite (start_loaded v _ _ _ Hsel Hload). cbn.
  apply contains_decompose in Hnl. destruct Hnl as [b [a [-> Ha]]].
  now rewrite rsplit1_head_sep, without_final_line_sep.
Qed.

(** C7: after a successful load, the configuration restored into the
    window is the empty mapping when the metadata has no key
    ["configuration"], and the value stored under that key otherwise. *)
Theorem C7_configuration_restored v header data meta :
  selected_file getOpenFileName savePath v <> "" ->
  load_datalogger_file (selected_file getOpenFileName savePath v)
  = Ok (header, data, meta) ->
  (get "configuration" meta = None ->
   configuration
     (fst (start getOpenFileName savePath load_datalogger_file restore v))
   = empty_mapping) /\
  (forall cfg, get "configuration" meta = Some cfg ->
   configuration
     (fst (start getOpenFileName savePath load_datalogger_file restore v))
   = cfg).
Proof.
  intros Hsel Hload.
  rewrite (start_loaded v _ _ _ Hsel Hload). cbn. unfold get_configuration.
  split.
  - intros ->. reflexivity.
  - intros cfg ->. reflexivity.
Qed.

(** C8: after a successful load, the saved-name label shows the name of
    the selected path: it holds no ["/"], and for a path [dir/base] whose
    [base] is a file name it is [base]. *)
Theorem C8_saved_name_is_file_name v header data meta :
  selected_file getOpenFileName savePath v <> "" ->
  load_datalogger_file (selected_file getOpenFileName savePath v)
  = Ok (header, data, meta) ->
  let shown :=
    leSavedName
      (fst (start getOpenFileName savePath load_datalogger_file restore v)) in
  shown = PosixPath.name (selected_file getOpenFileName savePath v) /\
  PyStr.contains PyStr.slash shown = false /\
  (forall dir base,
     selected_file getOpenFileName savePath v
     = (dir ++ String PyStr.slash base)%string ->
     PyStr.contains PyStr.slash base = false ->
     PosixPath.is_part base = true ->
     shown = base).
Proof.
  intros Hsel Hload.
  rewrite (start_loaded v _ _ _ Hsel Hload). cbn.
  split; [reflexivity|]. split; [apply name_no_slash|].
  intros dir base -> Hs Hp. now apply name_of_join.
Qed.

(** C9: after a successful load of a file whose header has no newline,
    the header text shown is the whole header. *)
Theorem C9_single_line_header_kept v header data meta :
  selected_file getOpenFileName savePath v <> "" ->
  load_datalogger_file (selected_file getOpenFileName savePath v)
  = Ok (header, data, meta) ->
  PyStr.contains PyStr.newline header = false ->
  leHeader (fst (start getOpenFileName savePath load_datalogger_file restore v))
  = header.
Proof.
  intros Hsel Hload Hnl.
  rewrite (start_loaded v _ _ _ Hsel Hload). cbn.
  now apply rsplit1_head_no_sep.
Qed.

(** C10: after a successful load in which ["time_h"] is derived,
    ["time_h"] is the last key of the samples mapping, and the count
    label reads ["Data points: "] followed by the decimal digits of the
    length of the derived ["time_h"] samples, which is the length of
    the loaded ["time"] samples. *)
Theorem C10_count_is_length_of_time v header data meta :
  selected_file getOpenFileName savePath v <> "" ->
  load_datalogger_file (selected_file getOpenFileName savePath v)
  = Ok (header, data, meta) ->
  mem "time" data = true ->
  mem "time_h" data = false ->
  let v' :=
    fst (start getOpenFileName savePath load_datalogger_file restore v) in
  exists time time_h digits,
    get "time" data = Some time /\
    keys (lists v') = keys data ++ ["time_h"] /\
    get "time_h" (lists v') = Some time_h /\
    time_h = map (fun x => (x / 3600)%float) time /\
    length time_h = length time /\
    lbCount v' = ("Data points: " ++ digits)%string /\
    digits = NilEmpty.string_of_uint (Nat.to_uint (length time_h)) /\
    option_map Nat.of_uint (NilEmpty.uint_of_string digits)
    = Some (length time).
Proof.
  intros Hsel Hload Ht Hh.
  assert (derives data = true) as D by now apply derives_iff.
  rewrite (start_loaded v _ _ _ Hsel Hload). cbn -[keys get set].
  apply mem_In, In_keys_get in Ht. destruct Ht as [time Ht].
  destruct (count_text_decimal (length (div3600 time)))
    as [digits [T [Dg Rd]]].
  exists time, (div3600 time), digits.
  assert (keys (lists_after data) = keys data ++ ["time_h"]) as K.
  { now rewrite (lists_after_derived _ _ D Ht), keys_app. }
  destruct (count_after_last (lists_after data) (lbCount v) _ _ K)
    as [xs [G C]].
  assert (get "time_h" (lists_after data) = Some (div3600 time)) as G'.
  { unfold lists_after. rewrite D, Ht. apply get_set_same. }
  rewrite G' in G. inversion G; subst xs.
  rewrite C, T. rewrite div3600_length in Rd.
  repeat split; try assumption. apply div3600_length.
Qed.

End StartFacts.

(* ===================================================================== *)
(** ** Further properties of [start] *)
(* ===================================================================== *)

Section StartMore.
Variable getOpenFileName : string -> string.
Variable savePath : string.
Variable load_datalogger_file :
  string -> result (string * dict (list float) * dict value).
Variable restore : value -> list string * dict string ->
                   list string * dict string.

Implicit Types (v : Viewer) (data : dict (list float)) (meta : dict value).


(** X2: a successful load emits exactly two signals, [update_plots] and
    then [started], after those emitted before. *)
Theorem start_emits_update_plots_then_started v header data meta :
  selected_file getOpenFileName savePath v <> "" ->
  load_datalogger_file (selected_file getOpenFileName savePath v)
  = Ok (header, data, meta) ->
  emitted
    (fst (start getOpenFileName savePath load_datalogger_file restore v))
  = emitted v ++ [update_plots; started].
Proof.
  intros Hsel Hload.
  now rewrite (start_loaded _ _ _ restore v _ _ _ Hsel Hload).
Qed.

(** X3: after a successful load the published units [current_units] are
    the units of the window, and the unit of every name other than
    ["time_h"] is the one [set_configuration] left. *)
Theorem start_publishes_units v header data meta :
  selected_file getOpenFileName savePath v <> "" ->
  load_datalogger_file (selected_file getOpenFileName savePath v)
  = Ok (header, data, meta) ->
  let v' :=
    fst (start getOpenFileName savePath load_datalogger_file restore v) in
  current_units v' = units v' /\
  (forall k, k <> "time_h" ->
     get k (units v')
     = get k (snd (restore (get_configuration meta)
                     (variables v, units v)))).
Proof.
  intros Hsel Hload.
  rewrite (start_loaded _ _ _ restore v _ _ _ Hsel Hload).
  cbn -[get set]. split; [reflexivity|].
  intros k N. destruct (derives data); [|reflexivity].
  apply get_set_other. congruence.
Qed.

(** X4: once a file has been selected, whether its load succeeds or
    fails, the next file dialog opens at that file and no longer at the
    saved path of the settings. *)
Theorem next_dialog_opens_at_selected_file v :
  selected_file getOpenFileName savePath v <> "" ->
  start_directory savePath
    (fst (start getOpenFileName savePath load_datalogger_file restore v))
  = selected_file getOpenFileName savePath v.
Proof.
  intros N. pose proof N as N'. apply String.eqb_neq in N'.
  destruct (load_datalogger_file
              (selected_file getOpenFileName savePath v))
    as [[[header data] meta] | e] eqn:L.
  - rewrite (start_loaded _ _ _ restore v _ _ _ N L).
    unfold start_directory. cbn. now rewrite N'.
  - rewrite (start_load_error _ _ _ restore v _ N L).
    unfold start_directory. cbn. now rewrite N'.
Qed.

(** X5: a successful load shows every loaded column as it was loaded:
    the samples mapping is the loaded data, followed by at most the
    derived ["time_h"] entry, and every name of the data keeps its
    samples. *)
Theorem start_keeps_loaded_columns v header data meta :
  selected_file getOpenFileName savePath v <> "" ->
  load_datalogger_file (selected_file getOpenFileName savePath v)
  = Ok (header, data, meta) ->
  let v' :=
    fst (start getOpenFileName savePath load_datalogger_file restore v) in
  (exists extra, lists v' = data ++ extra /\ length extra <= 1) /\
  (forall k xs, get k data = Some xs -> get k (lists v') = Some xs) /\
  (forall k, k <> "time_h" -> get k (lists v') = get k data).
Proof.
  intros Hsel Hload.
  rewrite (start_loaded _ _ _ restore v _ _ _ Hsel Hload).
  cbn -[get set]. destruct (derives data) eqn:D.
  - destruct (proj1 (derives_iff getOpenFileName savePath load_datalogger_file data) D) as [Ht Hh].
    apply mem_In, In_keys_get in Ht. destruct Ht as [time Ht].
    rewrite (lists_after_derived getOpenFileName savePath load_datalogger_file _ _ D Ht).
    split; [|split].
    + exists [("time_h", div3600 time)]. split; [reflexivity | simpl; lia].
    + intros k xs G. rewrite get_app_fresh. now rewrite G.
    + intros k N. rewrite get_app_fresh.
      destruct (get k data); [reflexivity|].
      destruct (String.eqb_spec "time_h" k); [congruence | reflexivity].
  - rewrite (lists_after_kept _ D).
    split; [|split]; try tauto.
    exists []. split; [now rewrite app_nil_r | simpl; lia].
Qed.

(** X6: the header text shown after a successful load is the loaded
    header up to its last newline: either the header has no newline and
    is shown whole, or what is cut off is that newline and a last line
    without newline. *)
Theorem header_shown_is_prefix v header data meta :
  selected_file getOpenFileName savePath v <> "" ->
  load_datalogger_file (selected_file getOpenFileName savePath v)
  = Ok (header, data, meta) ->
  let shown :=
    leHeader
      (fst (start getOpenFileName savePath load_datalogger_file restore v)) in
  (PyStr.contains PyStr.newline header = false /\ header = shown) \/
  (exists last_line,
      PyStr.contains PyStr.newline last_line = false /\
      header = (shown ++ String PyStr.newline last_line)%string).
Proof.
  intros Hsel Hload.
  rewrite (start_loaded _ _ _ restore v _ _ _ Hsel Hload). cbn.
  destruct (PyStr.contains PyStr.newline header) eqn:C.
  - right. apply contains_decompose in C. destruct C as [b [a [-> Ha]]].
    exists a. now rewrite rsplit1_head_sep.
  - left. now rewrite rsplit1_head_no_sep.
Qed.

(** X7: what a successful load shows of the file does not depend on what
    the window showed before: two windows that load the same header, data
    and metadata end with the same samples mapping, header text and
    configuration. *)
Theorem load_replaces_what_was_shown v1 v2 header data meta :
  selected_file getOpenFileName savePath v1 <> "" ->
  selected_file getOpenFileName savePath v2 <> "" ->
  load_datalogger_file (selected_file getOpenFileName savePath v1)
  = Ok (header, data, meta) ->
  load_datalogger_file (selected_file getOpenFileName savePath v2)
  = Ok (header, data, meta) ->
  let v1' :=
    fst (start getOpenFileName savePath load_datalogger_file restore v1) in
  let v2' :=
    fst (start getOpenFileName savePath load_datalogger_file restore v2) in
  lists v1' = lists v2' /\ leHeader v1' = leHeader v2' /\
  configuration v1' = configuration v2'.
Proof.
  intros N1 N2 L1 L2.
  rewrite (start_loaded _ _ _ restore v1 _ _ _ N1 L1).
  rewrite (start_loaded _ _ _ restore v2 _ _ _ N2 L2).
  cbn. repeat split.
Qed.

(** X8: each derivation of ["time_h"] adds one more occurrence of the
    name to the variable names, whether or not the names left by
    [set_configuration] already hold it: line 103 appends without
    looking. *)
Theorem time_h_is_appended_without_check v header data meta :
  selected_file getOpenFileName savePath v <> "" ->
  load_datalogger_file (selected_file getOpenFileName savePath v)
  = Ok (header, data, meta) ->
  mem "time" data = true ->
  mem "time_h" data = false ->
  let v' :=
    fst (start getOpenFileName savePath load_datalogger_file restore v) in
  count_occ string_dec (variables v') "time_h"
  = S (count_occ string_dec
         (fst (restore (get_configuration meta) (variables v, units v)))
         "time_h").
Proof.
  intros Hsel Hload Ht Hh.
  assert (derives data = true) as D.
  { unfold derives. now rewrite Ht, Hh. }
  rewrite (start_loaded _ _ _ restore v _ _ _ Hsel Hload). cbn.
  rewrite D, count_occ_app. simpl. lia.
Qed.

End StartMore.

(* ===================================================================== *)
(** ** Properties of [seconds_utc_to_time] *)
(* ===================================================================== *)

Lemma time_of_day_seconds (tod : Z) :
  (0 <= tod < 86400)%Z ->
  Clock.to_seconds (Clock.time_of_day tod) = tod /\
  (0 <= Clock.hour (Clock.time_of_day tod) < 24)%Z /\
  (0 <= Clock.minute (Clock.time_of_day tod) < 60)%Z /\
  (0 <= Clock.second (Clock.time_of_day tod) < 60)%Z.
Proof.
  intros H. unfold Clock.to_seconds, Clock.time_of_day. simpl.
  Z.div_mod_to_equations. lia.
Qed.

Section ClockFacts.
Local Open Scope Z_scope.
Variable today : Z.
Variable tm_gmtoff : Z -> Clock.clock_error + Z.

(** X9: for a number of seconds within one day, on a day that is neither
    the first nor the last of the calendar, and a local offset of less
    than a day, [seconds_utc_to_time] returns a time: its hour, minute
    and second are in range and it lies [seconds] plus the local offset
    after midnight, modulo one day. *)
Theorem seconds_utc_to_time_returns seconds gmtoff :
  1 < today < Clock.MAXORDINAL ->
  0 <= seconds < 86400 ->
  tm_gmtoff ((today - Clock.EPOCH_ORDINAL) * 86400 + seconds) = inr gmtoff ->
  - 86400 < gmtoff < 86400 ->
  exists t,
    Clock.seconds_utc_to_time today tm_gmtoff seconds = Clock.Returns t /\
    Clock.to_seconds t = (seconds + gmtoff) mod 86400 /\
    0 <= Clock.hour t < 24 /\
    0 <= Clock.minute t < 60 /\
    0 <= Clock.second t < 60.
Proof.
  intros Hd Hs Hoff Hg. unfold Clock.seconds_utc_to_time.
  rewrite (Z.div_small seconds 86400) by lia.
  replace ((0 <? - Clock.MAX_DELTA_DAYS) || (Clock.MAX_DELTA_DAYS <? 0))%bool
    with false by reflexivity.
  unfold Clock.valid_ordinal, Clock.MAXORDINAL in *.
  replace ((1 <=? today + 0) && (today + 0 <=? 3652059))%bool with true
    by (symmetry; apply andb_true_iff; split; apply Z.leb_le; lia).
  cbn [negb]. rewrite Hoff.
  assert ((today * 86400 + seconds + gmtoff) mod 86400
          = (seconds + gmtoff) mod 86400) as M.
  { replace (today * 86400 + seconds + gmtoff)
      with (seconds + gmtoff + today * 86400) by lia.
    apply Z_mod_plus_full. }
  assert (today - 1 <= (today * 86400 + seconds + gmtoff) / 86400
          <= today + 1) as R.
  { Z.div_mod_to_equations. lia. }
  replace ((1 <=? (today * 86400 + seconds + gmtoff) / 86400) &&
           ((today * 86400 + seconds + gmtoff) / 86400 <=? 3652059))%bool
    with true
    by (symmetry; apply andb_true_iff; split; apply Z.leb_le; lia).
  cbn [negb]. rewrite M.
  eexists. split; [reflexivity|].
  apply time_of_day_seconds. apply Z.mod_pos_bound. lia.
Qed.

(** X10: whenever [seconds_utc_to_time] returns for two numbers of
    seconds that differ by whole days, and the local offset is the same
    at both instants, the two times are equal. *)
Theorem seconds_utc_to_time_whole_days seconds n t1 t2 gmtoff :
  tm_gmtoff ((today - Clock.EPOCH_ORDINAL) * 86400 + seconds) = inr gmtoff ->
  tm_gmtoff ((today - Clock.EPOCH_ORDINAL) * 86400 + (seconds + n * 86400))
  = inr gmtoff ->
  Clock.seconds_utc_to_time today tm_gmtoff seconds = Clock.Returns t1 ->
  Clock.seconds_utc_to_time today tm_gmtoff (seconds + n * 86400)
  = Clock.Returns t2 ->
  t1 = t2.
Proof.
  unfold Clock.seconds_utc_to_time. intros O1 O2. rewrite O1, O2.
  repeat match goal with
         | |- context [if ?b then _ else _] => destruct b
         end; try discriminate.
  intros H1 H2. inversion H1. inversion H2. f_equal.
  replace (today * 86400 + (seconds + n * 86400) + gmtoff)
    with (today * 86400 + seconds + gmtoff + n * 86400) by lia.
  now rewrite Z_mod_plus_full.
Qed.

End ClockFacts.

(* ===================================================================== *)
(** ** The built-ins at sample arguments *)
(* ===================================================================== *)

Example rsplit1_three_lines :
  PyStr.rsplit1 PyStr.newline Sample.header3
  = [("A" ++ String PyStr.newline "B")%string; "C"].
Proof. reflexivity. Qed.

Example rsplit1_one_line : PyStr.rsplit1 PyStr.newline "A" = ["A"].
Proof. reflexivity. Qed.

Example split_path :
  PyStr.split PyStr.slash "/a/b/run1.json" = [""; "a"; "b"; "run1.json"].
Proof. reflexivity. Qed.

Example name_of_root : PosixPath.name "/" = "".
Proof. reflexivity. Qed.

Example name_of_directory : PosixPath.name "/a/b/" = "b".
Proof. reflexivity. Qed.

Example of_nat_120 : PyStr.of_nat 120 = "120".
Proof. reflexivity. Qed.

Example set_existing_key :
  set "a" 7 [("a", 1); ("b", 2)] = [("a", 7); ("b", 2)].
Proof. reflexivity. Qed.

Example set_new_key :
  set "c" 7 [("a", 1); ("b", 2)] = [("a", 1); ("b", 2); ("c", 7)].
Proof. reflexivity. Qed.

Example div3600_sample : div3600 [0; 1800; 3600]%float = [0; 0.5; 1]%float.
Proof. reflexivity. Qed.

(* ===================================================================== *)
(** ** The statements at sample files *)
(* ===================================================================== *)

Import Sample.

Lemma picked_not_empty v : selected_file pick "" v <> "".
Proof. apply String.eqb_neq. reflexivity. Qed.

(** Cancelling while an earlier measurement is shown. *)
Lemma C5_witness :
  selected_file cancel "/home" shown = "" /\
  start cancel "/home" corrupt keep shown = (shown, Ok tt).
Proof.
  split; [reflexivity|].
  exact (proj1 (C5_cancel_is_noop cancel "/home" corrupt keep shown
                  eq_refl)).
Defined.

(** C3 as stated fails: a load that raises has already replaced the last
    path of the window. *)
Lemma C3_counterexample :
  let run := start pick "" corrupt keep shown in
  snd run = Raise (LoadError "corrupt file") /\
  last_path shown = "/a/old.json" /\
  last_path (fst run) = "/a/b/run1.json" /\
  fst run <> shown.
Proof.
  repeat split. intros H. apply (f_equal last_path) in H.
  vm_compute in H. discriminate H.
Qed.

Lemma C3_witness :
  selected_file pick "" shown <> "" /\
  corrupt (selected_file pick "" shown) = Raise (LoadError "corrupt file") /\
  fst (start pick "" corrupt keep shown)
  = with_last_path "/a/b/run1.json" shown.
Proof.
  split; [apply picked_not_empty|]. split; [reflexivity|].
  exact (proj1 (proj2
    (C3_load_error_keeps_all_but_last_path pick "" corrupt keep shown
       (LoadError "corrupt file") (picked_not_empty shown) eq_refl))).
Defined.

Lemma C1_witness :
  let v' := fst (start pick "" (load header3 seconds []) keep shown) in
  mem "time" seconds = true /\ mem "time_h" seconds = false /\
  In "time_h" (variables v') /\
  (exists time,
      get "time" seconds = Some time /\
      get "time_h" (lists v')
      = Some (map (fun x => (x / 3600)%float) time)) /\
  get "time_h" (units v') = Some "h".
Proof.
  pose proof (C1_time_h_derived pick "" (load header3 seconds []) keep
                shown header3 seconds [] (picked_not_empty shown)
                eq_refl eq_refl eq_refl) as H.
  split; [reflexivity|]. split; [reflexivity|].
  split; [exact (proj1 (proj2 H))|].
  split; [exact (proj1 (proj2 (proj2 (proj2 H))))|].
  exact (proj1 (proj2 (proj2 (proj2 (proj2 H))))).
Defined.

Lemma hours_wf : wf hours.
Proof. repeat constructor; simpl; intuition discriminate. Qed.

(** A file that already has hours keeps them. *)
Lemma C4_witness :
  let v' := fst (start pick "" (load header3 hours []) keep shown) in
  wf hours /\ mem "time_h" hours = true /\
  lists v' = hours /\
  count_occ string_dec (keys (lists v')) "time_h" = 1 /\
  variables v' = variables shown.
Proof.
  pose proof (C4_time_h_only_when_missing pick "" (load header3 hours [])
                keep shown header3 hours [] (picked_not_empty shown)
                eq_refl hours_wf) as H.
  destruct H as [_ [_ [H _]]]. specialize (H eq_refl).
  split; [exact hours_wf|]. split; [reflexivity|].
  split; [exact (proj1 H)|].
  split; [exact (proj1 (proj2 (proj2 H)))|].
  exact (proj1 (proj2 (proj2 (proj2 H)))).
Defined.

Lemma C2_witness :
  let v' := fst (start pick "" (load header3 hours []) keep shown) in
  selected_file pick "" shown <> "" /\
  lbCount v' = "Data points: 2" /\
  exists xs digits,
    get "x" (lists v') = Some xs /\
    lbCount v' = ("Data points: " ++ digits)%string /\
    digits = NilEmpty.string_of_uint (Nat.to_uint (length xs)) /\
    option_map Nat.of_uint (NilEmpty.uint_of_string digits)
    = Some (length xs).
Proof.
  split; [apply picked_not_empty|]. split; [reflexivity|].
  exact (proj1 (proj2
    (C2_count_of_last_variable pick "" (load header3 hours []) keep shown
       header3 hours [] (picked_not_empty shown) eq_refl))
    ["time"; "time_h"] "x" eq_refl).
Defined.

(** C6 as stated fails on a header of one line: the line is shown, not
    removed. *)
Lemma C6_counterexample :
  let run := start pick "" (load "A" seconds []) keep shown in
  snd run = Ok tt /\
  leHeader (fst run) = "A" /\
  without_final_line "A" = "" /\
  leHeader (fst run) <> without_final_line "A".
Proof.
  repeat split. vm_compute. discriminate.
Qed.

Lemma C6_witness :
  PyStr.contains PyStr.newline header3 = true /\
  leHeader (fst (start pick "" (load header3 seconds []) keep shown))
  = without_final_line header3 /\
  without_final_line header3 = ("A" ++ String PyStr.newline "B")%string.
Proof.
  split; [reflexivity|]. split; [|reflexivity].
  exact (C6_header_without_final_line pick "" (load header3 seconds [])
           keep shown header3 seconds [] (picked_not_empty shown)
           eq_refl eq_refl).
Defined.

Lemma C7_witness :
  get "configuration" meta_cfg
  = Some (VDict [("trigger_type", VStr "timer")]) /\
  configuration
    (fst (start pick "" (load header3 seconds meta_cfg) keep shown))
  = VDict [("trigger_type", VStr "timer")] /\
  configuration (fst (start pick "" (load header3 seconds []) keep shown))
  = empty_mapping.
Proof.
  split; [reflexivity|]. split.
  - exact (proj2
      (C7_configuration_restored pick "" (load header3 seconds meta_cfg)
         keep shown header3 seconds meta_cfg (picked_not_empty shown)
         eq_refl) _ eq_refl).
  - exact (proj1
      (C7_configuration_restored pick "" (load header3 seconds [])
         keep shown header3 seconds [] (picked_not_empty shown)
         eq_refl) eq_refl).
Defined.

Lemma C8_witness :
  selected_file pick "" shown = "/a/b/run1.json" /\
  leSavedName (fst (start pick "" (load header3 seconds []) keep shown))
  = "run1.json".
Proof.
  split; [reflexivity|].
  exact (proj2 (proj2
    (C8_saved_name_is_file_name pick "" (load header3 seconds []) keep
       shown header3 seconds [] (picked_not_empty shown) eq_refl))
    "/a/b" "run1.json" eq_refl eq_refl eq_refl).
Defined.

Lemma C9_witness :
  PyStr.contains PyStr.newline "A" = false /\
  leHeader (fst (start pick "" (load "A" seconds []) keep shown)) = "A".
Proof.
  split; [reflexivity|].
  exact (C9_single_line_header_kept pick "" (load "A" seconds []) keep
           shown "A" seconds [] (picked_not_empty shown) eq_refl eq_refl).
Defined.

Lemma C10_witness :
  let v' := fst (start pick "" (load header3 seconds []) keep shown) in
  mem "time" seconds = true /\ mem "time_h" seconds = false /\
  lbCount v' = "Data points: 3" /\
  exists time time_h digits,
    get "time" seconds = Some time /\
    keys (lists v') = keys seconds ++ ["time_h"] /\
    get "time_h" (lists v') = Some time_h /\
    time_h = map (fun x => (x / 3600)%float) time /\
    length time_h = length time /\
    lbCount v' = ("Data points: " ++ digits)%string /\
    digits = NilEmpty.string_of_uint (Nat.to_uint (length time_h)) /\
    option_map Nat.of_uint (NilEmpty.uint_of_string digits)
    = Some (length time).
Proof.
  split; [reflexivity|]. split; [reflexivity|]. split; [reflexivity|].
  exact (C10_count_is_length_of_time pick "" (load header3 seconds [])
           keep shown header3 seconds [] (picked_not_empty shown)
           eq_refl eq_refl eq_refl).
Defined.

(** The whole state after loading the seconds file into a fresh window. *)
Example start_example :
  start pick "" (load header3 seconds []) keep init
  = (mkViewer "/a/b/run1.json"
       [("time", [0; 3600; 7200]%float); ("x", [1; 2; 3]%float);
        ("time_h", [0; 1; 2]%float)]
       [("time_h", "h")] [("time_h", "h")] ["time_h"] empty_mapping
       ("A" ++ String PyStr.newline "B")%string "run1.json"
       "Data points: 3" [update_plots; started],
     Ok tt).
Proof. vm_compute. reflexivity. Qed.

(** A file without any column: the count label keeps the old text and
    nothing is raised. *)
Example start_empty_file :
  let out := start pick "" (load "A" [] []) keep shown in
  snd out = Ok tt /\ lists (fst out) = [] /\
  lbCount (fst out) = lbCount shown.
Proof. repeat split. Qed.

(* ===================================================================== *)
(** ** The further properties at sample files *)
(* ===================================================================== *)

Lemma start_emits_update_plots_then_started_witness :
  load header3 seconds [] (selected_file pick "" shown)
  = Ok (header3, seconds, []) /\
  emitted (fst (start pick "" (load header3 seconds []) keep shown))
  = [update_plots; started; update_plots; started].
Proof.
  split; [reflexivity|].
  exact (start_emits_update_plots_then_started pick ""
           (load header3 seconds []) keep shown header3 seconds []
           (picked_not_empty shown) eq_refl).
Defined.

Lemma start_publishes_units_witness :
  let v' := fst (start pick "" (load header3 seconds []) keep shown) in
  "y" <> "time_h" /\
  current_units v' = units v' /\
  get "y" (units v') = Some "V".
Proof.
  assert ("y" <> "time_h") as N by (apply String.eqb_neq; reflexivity).
  pose proof (start_publishes_units pick "" (load header3 seconds []) keep
                shown header3 seconds [] (picked_not_empty shown) eq_refl)
    as H.
  split; [exact N|]. split; [exact (proj1 H) | exact (proj2 H "y" N)].
Defined.

Lemma next_dialog_opens_at_selected_file_witness :
  start_directory "/home" init = "/home" /\
  selected_file pick "/home" init <> "" /\
  start_directory "/home" (fst (start pick "/home" corrupt keep init))
  = "/a/b/run1.json".
Proof.
  assert (selected_file pick "/home" init <> "") as N
    by (apply String.eqb_neq; reflexivity).
  split; [reflexivity|]. split; [exact N|].
  exact (next_dialog_opens_at_selected_file pick "/home" corrupt keep init
           N).
Defined.

Lemma start_keeps_loaded_columns_witness :
  let v' := fst (start pick "" (load header3 seconds []) keep shown) in
  get "x" seconds = Some [1; 2; 3]%float /\
  get "x" (lists v') = Some [1; 2; 3]%float.
Proof.
  split; [reflexivity|].
  exact (proj1 (proj2
    (start_keeps_loaded_columns pick "" (load header3 seconds []) keep
       shown header3 seconds [] (picked_not_empty shown) eq_refl))
    "x" _ eq_refl).
Defined.

Lemma header_shown_is_prefix_witness :
  let shown_header :=
    leHeader (fst (start pick "" (load header3 seconds []) keep shown)) in
  selected_file pick "" shown <> "" /\
  ((PyStr.contains PyStr.newline header3 = false /\
    header3 = shown_header) \/
   (exists last_line,
       PyStr.contains PyStr.newline last_line = false /\
       header3 = (shown_header ++ String PyStr.newline last_line)%string)).
Proof.
  split; [apply picked_not_empty|].
  exact (header_shown_is_prefix pick "" (load header3 seconds []) keep
           shown header3 seconds [] (picked_not_empty shown) eq_refl).
Defined.

Lemma load_replaces_what_was_shown_witness :
  let v1' := fst (start pick "" (load header3 seconds []) keep init) in
  let v2' := fst (start pick "" (load header3 seconds []) keep shown) in
  init <> shown /\
  lists v1' = lists v2' /\ leHeader v1' = leHeader v2' /\
  configuration v1' = configuration v2'.
Proof.
  split; [discriminate|].
  exact (load_replaces_what_was_shown pick "" (load header3 seconds [])
           keep init shown header3 seconds [] (picked_not_empty init)
           (picked_not_empty shown) eq_refl eq_refl).
Defined.

(** Loading the seconds file twice, with a base window that leaves the
    names alone, shows ["time_h"] twice among the variable names. *)
Lemma time_h_is_appended_without_check_witness :
  let once := fst (start pick "" (load header3 seconds []) keep shown) in
  let twice := fst (start pick "" (load header3 seconds []) keep once) in
  mem "time" seconds = true /\ mem "time_h" seconds = false /\
  variables once = ["y"; "time_h"] /\
  count_occ string_dec (variables twice) "time_h" = 2.
Proof.
  split; [reflexivity|]. split; [reflexivity|]. split; [reflexivity|].
  exact (time_h_is_appended_without_check pick ""
           (load header3 seconds []) keep
           (fst (start pick "" (load header3 seconds []) keep shown))
           header3 seconds []
           (picked_not_empty _) eq_refl eq_refl eq_refl).
Defined.

(** 13:00:05 UTC on 2021-04-01 in a zone two hours east of Greenwich. *)
Lemma seconds_utc_to_time_returns_witness :
  (1 < 737881 < Clock.MAXORDINAL)%Z /\
  (0 <= 46805 < 86400)%Z /\
  exists t,
    Clock.seconds_utc_to_time 737881 (fun _ => inr 7200%Z) 46805
    = Clock.Returns t /\
    Clock.to_seconds t = ((46805 + 7200) mod 86400)%Z /\
    (0 <= Clock.hour t < 24)%Z /\
    (0 <= Clock.minute t < 60)%Z /\
    (0 <= Clock.second t < 60)%Z.
Proof.
  assert (1 < 737881 < Clock.MAXORDINAL)%Z as Hd by (split; reflexivity).
  assert (0 <= 46805 < 86400)%Z as Hs by (split; [discriminate | reflexivity]).
  split; [exact Hd|]. split; [exact Hs|].
  apply (seconds_utc_to_time_returns 737881 (fun _ => inr 7200%Z)
           46805 7200 Hd Hs eq_refl).
  split; reflexivity.
Defined.

Lemma seconds_utc_to_time_whole_days_witness :
  Clock.seconds_utc_to_time 737881 (fun _ => inr 7200%Z) 46805
  = Clock.Returns (Clock.mkTime 15 0 5) /\
  Clock.seconds_utc_to_time 737881 (fun _ => inr 7200%Z)
    (46805 + (-3) * 86400)
  = Clock.Returns (Clock.mkTime 15 0 5) /\
  Clock.mkTime 15 0 5 = Clock.mkTime 15 0 5.
Proof.
  split; [reflexivity|]. split; [reflexivity|].
  exact (seconds_utc_to_time_whole_days 737881 (fun _ => inr 7200%Z)
           46805 (-3) (Clock.mkTime 15 0 5) (Clock.mkTime 15 0 5) 7200
           eq_refl eq_refl eq_refl eq_refl).
Defined.
